(** * PropGuard AI, tab 3: the rent validator of [langproject.py]

    A shallow embedding of the "Validate Rent" button handler
    (lines 142-174 of [src/langproject.py]) and of the Python values it
    computes with: the [rent_data] dictionary, integers, binary64 floats
    and the Streamlit elements it renders. *)

From Stdlib Require Import ZArith QArith Lia List DecimalString.
From Stdlib Require Import Floats.SpecFloat.
From stdpp Require Import gmap strings list fin_maps.

Local Open Scope Z_scope.

(** ** Python exceptions and the result of an evaluation *)

Inductive exn : Type :=
  | KeyError (key : string)
  | OverflowError.

Inductive result (A : Type) : Type :=
  | Ok (a : A)
  | Raise (e : exn).
Arguments Ok {A} a.
Arguments Raise {A} e.

(** ** Python floats: IEEE 754 binary64, round to nearest even *)

Module PyFloat.

Definition prec : Z := 53.
Definition emax : Z := 1024.

Definition float : Type := spec_float.

(** [float(n)] for an [int]: correctly rounded, [OverflowError] when the
    rounded value is not finite. *)
Definition of_int (n : Z) : result float :=
  match binary_normalize prec emax n 0 false with
  | S754_infinity _ => Raise OverflowError
  | f => Ok f
  end.

Definition mul (x y : float) : float := SFmul prec emax x y.

(** [n * y] with [n] an [int] and [y] a [float]: the integer is converted
    first, then the two floats are multiplied. *)
Definition int_mul (n : Z) (y : float) : result float :=
  match of_int n with
  | Ok x => Ok (mul x y)
  | Raise e => Raise e
  end.

(** Exact three-way comparison of a float with an [int], as CPython's
    [float_richcompare] does it: no rounding of the integer. [None] for
    a NaN, which is unordered. *)
Definition compare_int (f : float) (n : Z) : option comparison :=
  match f with
  | S754_nan => None
  | S754_infinity s => Some (if s then Lt else Gt)
  | S754_zero _ => Some (0 ?= n)
  | S754_finite s m e =>
      let v := cond_Zopp s (Zpos m) in
      Some (if 0 <=? e then v * 2 ^ e ?= n else v ?= n * 2 ^ (- e))
  end.

(** [n < f] and [n > f] for an [int] n and a [float] f. *)
Definition int_lt (n : Z) (f : float) : bool :=
  match compare_int f n with Some Gt => true | _ => false end.

Definition int_gt (n : Z) (f : float) : bool :=
  match compare_int f n with Some Lt => true | _ => false end.

(** The literals [0.6] and [1.5] of the source, as the doubles the
    Python parser produces for them. *)
Definition lit_0_6 : float := S754_finite false 5404319552844595 (-53).
Definition lit_1_5 : float := S754_finite false 6755399441055744 (-52).

(** The value of a finite float as a rational. *)
Definition to_Q (f : float) : option Q :=
  match f with
  | S754_zero _ => Some 0%Q
  | S754_finite s m e =>
      let v := cond_Zopp s (Zpos m) in
      Some (if 0 <=? e then inject_Z (v * 2 ^ e)
            else Qmake v (Z.to_pos (2 ^ (- e))))
  | _ => None
  end.

End PyFloat.


(** ** Streamlit elements and the pie-chart input *)

(** [pd.DataFrame({"Category": [...], "Amount": [...]})]: two columns. *)
Record DataFrame : Type := {
  Category : list string;
  Amount : list Z
}.

(** [px.pie(df, names=..., values=..., title=..., color_discrete_sequence=...)]. *)
Record figure : Type := {
  data_frame : DataFrame;
  names : string;
  values : string;
  title : string;
  color_discrete_sequence : list string
}.

Inductive element : Type :=
  | st_error (body : string)
  | st_warning (body : string)
  | st_success (body : string)
  | st_plotly_chart (fig : figure)
  | st_markdown (body : string).

(** ** The state of a script run

    The script's global [rent_data] and the elements rendered so far, in
    order. Effects persist when an exception is raised, as in Python. *)

Record script_state : Type := {
  globals_rent_data : gmap string Z;
  rendered : list element
}.

Definition ui (A : Type) : Type := script_state -> result A * script_state.

Definition ret {A} (a : A) : ui A := fun s => (Ok a, s).

Definition bind {A B} (m : ui A) (k : A -> ui B) : ui B :=
  fun s => match m s with
           | (Ok a, s') => k a s'
           | (Raise e, s') => (Raise e, s')
           end.

Notation "x <- m ;; k" := (bind m (fun x => k))
  (at level 90, m at level 60, right associativity).
Notation "m ;;; k" := (bind m (fun _ => k))
  (at level 90, right associativity).

Definition lift {A} (r : result A) : ui A := fun s => (r, s).

(** Rendering appends one element to the page. *)
Definition emit (e : element) : ui unit :=
  fun s => (Ok tt, {| globals_rent_data := globals_rent_data s;
                      rendered := rendered s ++ [e] |}).

(** [rent_data[city]]: a dictionary subscript, [KeyError] on a missing key. *)
Definition getitem (city : string) : ui Z :=
  fun s => match globals_rent_data s !! city with
           | Some v => (Ok v, s)
           | None => (Raise (KeyError city), s)
           end.

(** [str(n)] for an [int]. *)
Definition str (n : Z) : string := NilZero.string_of_int (Z.to_int n).

(** ** Tab 3 of the script *)

(** The options of [st.selectbox] (line 144). *)
Definition city_options : list string :=
  ["Delhi"; "Mumbai"; "Bangalore"; "Hyderabad"; "Pune"]%string.

(** The dictionary literal of lines 146-152. *)
Definition rent_data : gmap string Z :=
  list_to_map [("Delhi", 18000); ("Mumbai", 25000); ("Bangalore", 20000);
               ("Hyderabad", 15000); ("Pune", 16000)]%string.

(** The bounds of [st.number_input] (line 154); all three arguments are
    [int], so the widget returns an [int] between them. *)
Definition min_value : Z := 1000.
Definition max_value : Z := 100000.
Definition step : Z := 500.

Definition in_range (user_rent : Z) : Prop :=
  min_value <= user_rent <= max_value.

(** An integer that a signed 64-bit column of a data frame holds. *)
Definition int64 (n : Z) : Prop := - 2 ^ 63 <= n < 2 ^ 63.

(** The body of [if st.button("Validate Rent"):] (lines 157-174).

    The data frame, the figure and the chart are built as values: pandas
    and plotly are taken to accept the two amounts. They do when both
    amounts are [int64], as they are for every rent the number input
    delivers against an average of the table; beyond 64 bits the real
    calls raise after the status element is rendered, and this model is
    not to be read there. *)
Definition validate_rent (city : string) (user_rent : Z) : ui unit :=
  avg <- getitem city ;;
  lo <- lift (PyFloat.int_mul avg PyFloat.lit_0_6) ;;
  (if PyFloat.int_lt user_rent lo then
     emit (st_error "🚩 Too Low — Possible Scam")
   else
     hi <- lift (PyFloat.int_mul avg PyFloat.lit_1_5) ;;
     if PyFloat.int_gt user_rent hi then
       emit (st_warning "⚠️ Unusually High Rent")
     else
       emit (st_success "✅ Rent Looks Reasonable")) ;;;
  let df := {| Category := ["Your Rent"; "Market Difference"]%string;
               Amount := [user_rent; Z.abs (avg - user_rent)] |} in
  let fig := {| data_frame := df;
                names := "Category";
                values := "Amount";
                title := "Rent Comparison Pie Chart";
                color_discrete_sequence := ["#2E8B57"; "#A9A9A9"]%string |} in
  emit (st_plotly_chart fig) ;;;
  emit (st_markdown ("🏙️ **Average Rent in " +:+ city +:+ "**: ₹" +:+ str avg)).

(** A click on the button in a fresh run of the script: [rent_data] has
    just been built and nothing of the handler is rendered yet. *)
Definition fresh : script_state :=
  {| globals_rent_data := rent_data; rendered := [] |}.

Definition click (city : string) (user_rent : Z) : result unit * list element :=
  let '(r, s) := validate_rent city user_rent fresh in (r, rendered s).


(** ** What a rendered page says

    The specification speaks of a verdict, an average rent and a comparison
    breakdown; the handler shows them as a status element, a markdown line
    and the data frame of the pie chart. *)

Inductive Verdict : Type := TooLow | TooHigh | Reasonable.

Definition verdict_of (e : element) : option Verdict :=
  match e with
  | st_error _ => Some TooLow
  | st_warning _ => Some TooHigh
  | st_success _ => Some Reasonable
  | _ => None
  end.

(** All verdicts on a page, in order of appearance. *)
Definition verdicts (page : list element) : list Verdict :=
  omap verdict_of page.

(** The labelled amounts of the charts on a page: the rows of the data
    frame, label first. *)
Definition breakdown_of (e : element) : list (string * Z) :=
  match e with
  | st_plotly_chart fig =>
      combine (Category (data_frame fig)) (Amount (data_frame fig))
  | _ => []
  end.

Definition comparisonBreakdown (page : list element) : list (string * Z) :=
  flat_map breakdown_of page.

(** The markdown bodies on a page. *)
Definition markdown_of (e : element) : option string :=
  match e with st_markdown body => Some body | _ => None end.

Definition markdowns (page : list element) : list string :=
  omap markdown_of page.

(** ** The classification in exact arithmetic

    The three-way rule as the specification words it, over the rationals:
    below 0.6 times the average, above 1.5 times the average, or neither. *)

Definition spec_classify (avg user_rent : Z) : Verdict :=
  match (inject_Z user_rent ?= inject_Z avg * 0.6)%Q with
  | Lt => TooLow
  | _ => match (inject_Z user_rent ?= inject_Z avg * 1.5)%Q with
         | Gt => TooHigh
         | _ => Reasonable
         end
  end.

(** The page the handler is expected to append for a city whose average is
    [avg]: the status of the verdict, the chart and the average line. *)
Definition status (v : Verdict) : element :=
  match v with
  | TooLow => st_error "🚩 Too Low — Possible Scam"
  | TooHigh => st_warning "⚠️ Unusually High Rent"
  | Reasonable => st_success "✅ Rent Looks Reasonable"
  end.

Definition chart (avg user_rent : Z) : element :=
  st_plotly_chart
    {| data_frame := {| Category := ["Your Rent"; "Market Difference"]%string;
                        Amount := [user_rent; Z.abs (avg - user_rent)] |};
       names := "Category";
       values := "Amount";
       title := "Rent Comparison Pie Chart";
       color_discrete_sequence := ["#2E8B57"; "#A9A9A9"]%string |}.

Definition average_line (city : string) (avg : Z) : element :=
  st_markdown ("🏙️ **Average Rent in " +:+ city +:+ "**: ₹" +:+ str avg).

Definition report (city : string) (avg user_rent : Z) : list element :=
  [status (spec_classify avg user_rent); chart avg user_rent;
   average_line city avg].

(** ** Python strings

    A [str] is a sequence of Unicode code points. The text the user types
    and the text the language model returns are values of this type. *)

Module PyStr.

Definition char : Type := N.
Definition t : Type := list char.

(** The code points for which [str.isspace] holds of a one-character
    string (CPython's [_PyUnicode_IsWhitespace]): the ASCII controls
    9-13 and 28-31, the space, U+0085, U+00A0, U+1680, U+2000-U+200A,
    U+2028, U+2029, U+202F, U+205F and U+3000. *)
Definition whitespace : list char :=
  [9; 10; 11; 12; 13; 28; 29; 30; 31; 32; 133; 160; 5760;
   8192; 8193; 8194; 8195; 8196; 8197; 8198; 8199; 8200; 8201; 8202;
   8232; 8233; 8239; 8287; 12288]%N.

Definition isspace (c : char) : bool := existsb (N.eqb c) whitespace.

(** [s.lstrip()], [s.rstrip()] and [s.strip()] without argument. *)
Fixpoint lstrip (s : t) : t :=
  match s with
  | [] => []
  | c :: s' => if isspace c then lstrip s' else c :: s'
  end.

Definition rstrip (s : t) : t := rev (lstrip (rev s)).

Definition strip (s : t) : t := rstrip (lstrip s).

(** [s.split()] without argument: the maximal runs of non-whitespace
    characters, in order. [split_aux s] is the run that starts at the head
    of [s] (empty when [s] is empty or starts with whitespace) and the runs
    after it. *)
Definition cons_word (w : t) (ws : list t) : list t :=
  match w with [] => ws | _ :: _ => w :: ws end.

Fixpoint split_aux (s : t) : t * list t :=
  match s with
  | [] => ([], [])
  | c :: s' =>
      let '(w, ws) := split_aux s' in
      if isspace c then ([], cons_word w ws) else (c :: w, ws)
  end.

Definition split (s : t) : list t :=
  let '(w, ws) := split_aux s in cons_word w ws.

(** [s.replace(old, new)] for a pattern [old] of one character, the only
    form the script uses. *)
Definition replace_char (old : char) (new : t) (s : t) : t :=
  flat_map (fun c => if N.eqb c old then new else [c]) s.

(** A literal of the source made of ASCII characters only. *)
Definition of_ascii (s : string) : t :=
  map Ascii.N_of_ascii (String.list_ascii_of_string s).

(** The truth value of a [str]: false for the empty string only. *)
Definition truthy (s : t) : bool :=
  match s with [] => false | _ :: _ => true end.

Definition space : char := 32%N.
Definition newline : char := 10%N.
Definition plus : char := 43%N.

(** A string of whitespace only (the empty string included). *)
Definition blank (s : t) : bool := forallb isspace s.

End PyStr.

(** ** Tabs 1 and 2 of the script *)

(** What the two tabs render below their input widgets. The constant
    labels are kept as the source spells them; the bodies that depend on
    user or model text are Python strings. [st_html body] is
    [st.markdown(body, unsafe_allow_html=True)] with the body given in
    full; [st_map_container src] is the same call for the HTML block of
    lines 115-121, kept by the one variable part of its body, the [src]
    attribute of the iframe: its body is [map_container_html src] below,
    and [html_body] reads the body of either; [st_button label] is a
    button that is only rendered conditionally. *)
Inductive widget : Type :=
  | st_success_label (body : string)
  | st_warning_label (body : string)
  | st_html (body : PyStr.t)
  | st_map_container (src : PyStr.t)
  | st_button (label : string).

(** How a run of a tab ends: normally, or with the exception raised by a
    chain, which nothing in the script catches. *)
Inductive outcome (error : Type) : Type :=
  | Finished
  | Crashed (e : error).
Arguments Finished {error}.
Arguments Crashed {error} e.

(** [text.strip().replace("\n", "<br>")] (lines 106 and 135). *)
Definition formatted (text : PyStr.t) : PyStr.t :=
  PyStr.replace_char PyStr.newline (PyStr.of_ascii "<br>") (PyStr.strip text).

(** [f"<div class='output-box'>{body}</div>"] (lines 107 and 137). *)
Definition output_box (body : PyStr.t) : PyStr.t :=
  PyStr.of_ascii "<div class='output-box'>" ++ body ++ PyStr.of_ascii "</div>".

(** The f-string of line 114. *)
Definition map_url (location : PyStr.t) : PyStr.t :=
  PyStr.of_ascii "https://www.google.com/maps?q=" ++
  PyStr.replace_char PyStr.space [PyStr.plus] location ++
  PyStr.of_ascii "&output=embed".

(** The f-string of lines 115-121, with [src] for [{map_url}]. The double
    quotes and the pin emoji of the source are given by their code
    points. *)
Definition dquote : PyStr.t := [34%N].

Definition map_container_html (src : PyStr.t) : PyStr.t :=
  PyStr.of_ascii "
            <div class='map-container'>
                <h4 style='color:white;'>" ++ [128205%N] ++
  PyStr.of_ascii " Interactive Location Map</h4>
                <iframe width=" ++ dquote ++ PyStr.of_ascii "100%" ++ dquote ++
  PyStr.of_ascii " height=" ++ dquote ++ PyStr.of_ascii "350" ++ dquote ++
  PyStr.of_ascii " frameborder=" ++ dquote ++ PyStr.of_ascii "0" ++ dquote ++
  PyStr.of_ascii " style=" ++ dquote ++
  PyStr.of_ascii "border:0; border-radius:15px;" ++ dquote ++
  PyStr.of_ascii "
                src=" ++ dquote ++ src ++ dquote ++
  PyStr.of_ascii " allowfullscreen></iframe>
            </div>
            ".

(** The body of a widget rendered by [st.markdown] with
    [unsafe_allow_html=True]. *)
Definition html_body (w : widget) : option PyStr.t :=
  match w with
  | st_html body => Some body
  | st_map_container src => Some (map_container_html src)
  | _ => None
  end.

(** [len(location.strip().split()) < 2] (line 123). *)
Definition too_vague (location : PyStr.t) : bool :=
  (length (PyStr.split (PyStr.strip location)) <? 2)%nat.

(** [desc and price and location] as a condition (lines 102 and 112). *)
Definition all_filled (desc price location : PyStr.t) : bool :=
  PyStr.truthy desc && PyStr.truthy price && PyStr.truthy location.

Section Chains.

(** The two LangChain chains are external: [detection_chain.run] receives
    the three fields, [expert_chain.run] the question; each returns the
    model's text or raises. A run of the script calls each at most once. *)
Variable error : Type.
Variable detection_chain_run : PyStr.t -> PyStr.t -> PyStr.t -> error + PyStr.t.
Variable expert_chain_run : PyStr.t -> error + PyStr.t.

(** The body of [if st.button("Analyze Listing"):] (lines 102-109). *)
Definition analyze_listing (desc price location : PyStr.t)
  : outcome error * list widget :=
  if all_filled desc price location then
    match detection_chain_run desc price location with
    | inr result =>
        (Finished,
         [st_success_label "✅ Analysis Complete";
          st_html (output_box (formatted result))])
    | inl e => (Crashed e, [])
    end
  else (Finished, [st_warning_label "Please fill all fields."]).

(** The map part of the tab (lines 112-124). *)
Definition view_on_map (desc price location : PyStr.t) (map_clicked : bool)
  : list widget :=
  if all_filled desc price location then
    [st_button "🗺️ View on Google Map"] ++
    (if map_clicked then [st_map_container (map_url location)] else []) ++
    (if too_vague location then
       [st_warning_label
          "⚠️ Location seems too vague. Add proper city and area name."]
     else [])
  else [].

(** Tab 1 (lines 95-124): the three fields and the two buttons are the
    inputs of a run. *)
Definition tab1 (desc price location : PyStr.t)
    (analyze_clicked map_clicked : bool) : outcome error * list widget :=
  let '(o, page) :=
    if analyze_clicked then analyze_listing desc price location
    else (Finished, []) in
  match o with
  | Finished => (Finished, page ++ view_on_map desc price location map_clicked)
  | Crashed e => (Crashed e, page)
  end.

(** Tab 2 (lines 127-139). *)
Definition tab2 (user_q : PyStr.t) (advice_clicked : bool)
  : outcome error * list widget :=
  if advice_clicked then
    if PyStr.truthy (PyStr.strip user_q) then
      match expert_chain_run user_q with
      | inr response =>
          (Finished,
           [st_success_label "✅ Response:";
            st_html (output_box (formatted response))])
      | inl e => (Crashed e, [])
      end
    else (Finished, [st_warning_label "Type your question first."])
  else (Finished, []).

End Chains.

Arguments analyze_listing {error} detection_chain_run desc price location.
Arguments tab1 {error} detection_chain_run desc price location
  analyze_clicked map_clicked.
Arguments tab2 {error} expert_chain_run user_q advice_clicked.

(** The order of the verdicts by the rent that earns them. *)
Definition rank (v : Verdict) : Z :=
  match v with TooLow => 0 | Reasonable => 1 | TooHigh => 2 end.

(** * Properties *)

(** ** The float model *)

(** The two literals are the doubles nearest to 6/10 and 15/10: dividing
    the floats 6.0 (resp. 15.0) and 10.0 rounds to them. *)
Lemma lit_0_6_nearest :
  SFdiv PyFloat.prec PyFloat.emax
    (binary_normalize PyFloat.prec PyFloat.emax 6 0 false)
    (binary_normalize PyFloat.prec PyFloat.emax 10 0 false) = PyFloat.lit_0_6.
Proof. vm_compute. reflexivity. Qed.

Lemma lit_1_5_nearest :
  SFdiv PyFloat.prec PyFloat.emax
    (binary_normalize PyFloat.prec PyFloat.emax 15 0 false)
    (binary_normalize PyFloat.prec PyFloat.emax 10 0 false) = PyFloat.lit_1_5.
Proof. vm_compute. reflexivity. Qed.

Lemma lit_valid :
  valid_binary PyFloat.prec PyFloat.emax PyFloat.lit_0_6 = true /\
  valid_binary PyFloat.prec PyFloat.emax PyFloat.lit_1_5 = true.
Proof. split; vm_compute; reflexivity. Qed.

(** The products are rounded: [3 * 0.6] is the double just below 1.8, as
    in Python, where it prints as 1.7999999999999998. *)
Example int_mul_rounds :
  PyFloat.int_mul 3 PyFloat.lit_0_6 =
    Ok (S754_finite false 8106479329266892 (-52)) /\
  PyFloat.int_lt 2 (S754_finite false 8106479329266892 (-52)) = false /\
  (8106479329266892 # Z.to_pos (2 ^ 52) < 18 # 10)%Q.
Proof. repeat split; vm_compute; reflexivity. Qed.

(** Comparing a float with an integer compares its rational value. *)
Lemma compare_int_to_Q (f : PyFloat.float) (q : Q) (n : Z) :
  PyFloat.to_Q f = Some q ->
  PyFloat.compare_int f n = Some (q ?= inject_Z n)%Q.
Proof.
  destruct f as [s | s | | s m e]; simpl; try discriminate.
  - intros [= <-]. unfold Qcompare. simpl. now rewrite Z.mul_1_r.
  - intros [= <-]. f_equal. unfold Qcompare.
    destruct (0 <=? e) eqn:He; simpl.
    + now rewrite !Z.mul_1_r.
    + apply Z.leb_gt in He.
      rewrite Z.mul_1_r, Z2Pos.id by (apply Z.pow_pos_nonneg; lia).
      reflexivity.
Qed.

Lemma int_lt_to_Q (f : PyFloat.float) (q : Q) (n : Z) :
  PyFloat.to_Q f = Some q ->
  PyFloat.int_lt n f = match (inject_Z n ?= q)%Q with Lt => true | _ => false end.
Proof.
  intros Hq. unfold PyFloat.int_lt.
  rewrite (compare_int_to_Q _ _ _ Hq), <- (Qcompare_antisym (inject_Z n) q).
  now destruct (inject_Z n ?= q)%Q.
Qed.

Lemma int_gt_to_Q (f : PyFloat.float) (q : Q) (n : Z) :
  PyFloat.to_Q f = Some q ->
  PyFloat.int_gt n f = match (inject_Z n ?= q)%Q with Gt => true | _ => false end.
Proof.
  intros Hq. unfold PyFloat.int_gt.
  rewrite (compare_int_to_Q _ _ _ Hq), <- (Qcompare_antisym (inject_Z n) q).
  now destruct (inject_Z n ?= q)%Q.
Qed.

(** ** The reference table *)

Lemma rent_data_inv (c : string) (avg : Z) :
  rent_data !! c = Some avg ->
  (c, avg) ∈ [("Delhi", 18000); ("Mumbai", 25000); ("Bangalore", 20000);
              ("Hyderabad", 15000); ("Pune", 16000)]%string.
Proof. intros H. apply elem_of_list_to_map_2 in H. exact H. Qed.

Lemma rent_data_cases (P : string -> Z -> Prop) :
  P "Delhi"%string 18000 -> P "Mumbai"%string 25000 ->
  P "Bangalore"%string 20000 -> P "Hyderabad"%string 15000 ->
  P "Pune"%string 16000 ->
  forall c avg, rent_data !! c = Some avg -> P c avg.
Proof.
  intros H1 H2 H3 H4 H5 c avg H. apply rent_data_inv in H.
  repeat (apply elem_of_cons in H as [[= -> ->] | H]; [assumption |]).
  now apply elem_of_nil in H.
Qed.

(** For every average of the table both float products are finite and
    exact: [avg * 0.6] and [avg * 1.5] evaluate to the doubles whose value
    is the rational product. *)
Lemma thresholds_exact (c : string) (avg : Z) :
  rent_data !! c = Some avg ->
  exists lo hi ql qh,
    PyFloat.int_mul avg PyFloat.lit_0_6 = Ok lo /\
    PyFloat.int_mul avg PyFloat.lit_1_5 = Ok hi /\
    PyFloat.to_Q lo = Some ql /\ PyFloat.to_Q hi = Some qh /\
    (ql == inject_Z avg * 0.6)%Q /\ (qh == inject_Z avg * 1.5)%Q.
Proof.
  revert c avg. apply rent_data_cases;
    do 4 eexists; (repeat split; [vm_compute; reflexivity ..]).
Qed.

(** ** The handler *)

(** On the reference table the handler succeeds for every configured city
    and appends exactly the report of the exact-arithmetic rule. *)
Lemma validate_rent_reference (s : script_state) (c : string) (avg r : Z) :
  globals_rent_data s = rent_data ->
  rent_data !! c = Some avg ->
  validate_rent c r s =
    (Ok tt, {| globals_rent_data := globals_rent_data s;
               rendered := rendered s ++ report c avg r |}).
Proof.
  intros Ht H.
  destruct (thresholds_exact c avg H)
    as (lo & hi & ql & qh & Hlo & Hhi & Hql & Hqh & El & Eh).
  destruct s as [tbl page]; simpl in Ht; subst tbl.
  unfold validate_rent, bind, getitem, lift, emit; simpl. rewrite H, Hlo.
  rewrite (int_lt_to_Q _ _ _ Hql).
  rewrite (Qcompare_comp _ _ (Qeq_refl (inject_Z r)) _ _ El).
  unfold report, spec_classify.
  destruct (inject_Z r ?= inject_Z avg * 0.6)%Q; simpl;
    rewrite ?Hhi, ?(int_gt_to_Q _ _ _ Hqh),
      ?(Qcompare_comp _ _ (Qeq_refl (inject_Z r)) _ _ Eh);
    try destruct (inject_Z r ?= inject_Z avg * 1.5)%Q; simpl;
    rewrite <- !app_assoc; reflexivity.
Qed.

(** For any table, the handler reads the table and appends to the page:
    its outcome and the elements it adds do not depend on what was
    rendered before, and the table is left as it was. *)
Lemma validate_rent_frame (c : string) (r : Z) (s : script_state) :
  validate_rent c r s =
    let '(res, s0) :=
      validate_rent c r {| globals_rent_data := globals_rent_data s;
                           rendered := [] |} in
    (res, {| globals_rent_data := globals_rent_data s;
             rendered := rendered s ++ rendered s0 |}).
Proof.
  destruct s as [tbl page].
  unfold validate_rent, bind, getitem, lift, emit; simpl.
  destruct (tbl !! c) as [avg|]; [| now rewrite app_nil_r].
  destruct (PyFloat.int_mul avg PyFloat.lit_0_6) as [lo|]; [| now rewrite app_nil_r].
  destruct (PyFloat.int_lt r lo); simpl.
  - now rewrite <- !app_assoc.
  - destruct (PyFloat.int_mul avg PyFloat.lit_1_5) as [hi|]; [| now rewrite app_nil_r].
    destruct (PyFloat.int_gt r hi); simpl; now rewrite <- !app_assoc.
Qed.

Lemma click_reference (c : string) (avg r : Z) :
  rent_data !! c = Some avg -> click c r = (Ok tt, report c avg r).
Proof.
  intros H. unfold click.
  now rewrite (validate_rent_reference fresh c avg r eq_refl H).
Qed.

Lemma rent_data_positive (c : string) (avg : Z) :
  rent_data !! c = Some avg -> 15000 <= avg <= 25000.
Proof. revert c avg. apply rent_data_cases; lia. Qed.

(** Every option of the select box is a key of the table, so a click in
    the running application never raises [KeyError]. *)
Lemma city_options_configured (c : string) :
  c ∈ city_options -> is_Some (rent_data !! c).
Proof.
  unfold city_options. intros H.
  repeat (apply elem_of_cons in H as [-> | H]; [eexists; reflexivity |]).
  now apply elem_of_nil in H.
Qed.

(** ** Reading a report *)

Lemma verdicts_report (c : string) (avg r : Z) :
  verdicts (report c avg r) = [spec_classify avg r].
Proof. unfold report. now destruct (spec_classify avg r). Qed.

Lemma breakdown_report (c : string) (avg r : Z) :
  comparisonBreakdown (report c avg r) =
    [("Your Rent"%string, r); ("Market Difference"%string, Z.abs (avg - r))].
Proof. unfold report. now destruct (spec_classify avg r). Qed.

Lemma markdowns_report (c : string) (avg r : Z) :
  markdowns (report c avg r) =
    ["🏙️ **Average Rent in " +:+ c +:+ "**: ₹" +:+ str avg]%string.
Proof. unfold report. now destruct (spec_classify avg r). Qed.

(** ** The exact-arithmetic rule *)

Lemma spec_classify_low (avg r : Z) :
  (inject_Z r < inject_Z avg * 0.6)%Q -> spec_classify avg r = TooLow.
Proof.
  intros H. unfold spec_classify. now rewrite (proj1 (Qlt_alt _ _) H).
Qed.

Lemma spec_classify_high (avg r : Z) :
  0 <= avg ->
  (inject_Z avg * 1.5 < inject_Z r)%Q -> spec_classify avg r = TooHigh.
Proof.
  intros Hpos H. unfold spec_classify.
  assert (Hlo : (inject_Z avg * 0.6 < inject_Z r)%Q).
  { unfold Qlt in *; simpl in *. lia. }
  now rewrite (proj1 (Qgt_alt _ _) Hlo), (proj1 (Qgt_alt _ _) H).
Qed.

Lemma spec_classify_mid (avg r : Z) :
  (inject_Z avg * 0.6 <= inject_Z r)%Q ->
  (inject_Z r <= inject_Z avg * 1.5)%Q -> spec_classify avg r = Reasonable.
Proof.
  intros Hlo Hhi. unfold spec_classify.
  pose proof (proj1 (Qle_alt _ _) Hhi) as Ehi.
  destruct (inject_Z r ?= inject_Z avg * 0.6)%Q eqn:E.
  - now destruct (inject_Z r ?= inject_Z avg * 1.5)%Q.
  - now destruct (Qlt_not_le _ _ (proj2 (Qlt_alt _ _) E)).
  - now destruct (inject_Z r ?= inject_Z avg * 1.5)%Q.
Qed.

(** ** Verdicts on the reference table *)

Lemma too_low (c : string) (avg r : Z) :
  rent_data !! c = Some avg ->
  (inject_Z r < inject_Z avg * 0.6)%Q ->
  verdicts (click c r).2 = [TooLow].
Proof.
  intros H Hlt.
  rewrite (click_reference c avg r H); cbn [fst snd]; rewrite verdicts_report.
  f_equal. now apply spec_classify_low.
Qed.

Lemma too_high (c : string) (avg r : Z) :
  rent_data !! c = Some avg ->
  (inject_Z avg * 1.5 < inject_Z r)%Q ->
  verdicts (click c r).2 = [TooHigh].
Proof.
  intros H Hgt. pose proof (rent_data_positive c avg H) as Hpos.
  rewrite (click_reference c avg r H); cbn [fst snd]; rewrite verdicts_report.
  f_equal. apply spec_classify_high; [lia | exact Hgt].
Qed.

Lemma reasonable (c : string) (avg r : Z) :
  rent_data !! c = Some avg ->
  (inject_Z avg * 0.6 <= inject_Z r)%Q ->
  (inject_Z r <= inject_Z avg * 1.5)%Q ->
  verdicts (click c r).2 = [Reasonable].
Proof.
  intros H Hlo Hhi.
  rewrite (click_reference c avg r H); cbn [fst snd]; rewrite verdicts_report.
  f_equal. now apply spec_classify_mid.
Qed.

Lemma click_ok (c : string) (avg r : Z) :
  rent_data !! c = Some avg -> (click c r).1 = Ok tt.
Proof. intros H. now rewrite (click_reference c avg r H). Qed.

(** * The claims *)

(** C1. For every configured city and every rent inside the input range
    that lies between 0.6 and 1.5 times the city's average (both ends
    included), the handler returns normally and the only verdict it shows
    is Reasonable; so do the two boundary rents, equal to 0.6 times and to
    1.5 times the average. *)
Theorem reasonable_within_band (c : string) (avg r : Z) :
  rent_data !! c = Some avg ->
  in_range r ->
  ((inject_Z avg * 0.6 <= inject_Z r <= inject_Z avg * 1.5)%Q ->
     (click c r).1 = Ok tt /\ verdicts (click c r).2 = [Reasonable]) /\
  ((inject_Z r == inject_Z avg * 0.6)%Q ->
     (click c r).1 = Ok tt /\ verdicts (click c r).2 = [Reasonable]) /\
  ((inject_Z r == inject_Z avg * 1.5)%Q ->
     (click c r).1 = Ok tt /\ verdicts (click c r).2 = [Reasonable]).
Proof.
  intros H _. pose proof (rent_data_positive c avg H) as Hpos.
  repeat split; first [apply (click_ok c avg r H) | apply (reasonable c avg r H)];
    unfold Qle, Qeq in *; simpl in *; lia.
Qed.

Lemma reasonable_within_band_witness :
  rent_data !! "Delhi"%string = Some 18000 /\
  in_range 10800 /\
  (inject_Z 10800 == inject_Z 18000 * 0.6)%Q /\
  verdicts (click "Delhi" 10800).2 = [Reasonable].
Proof.
  assert (Hin : in_range 10800) by (unfold in_range, min_value, max_value; lia).
  assert (Heq : (inject_Z 10800 == inject_Z 18000 * 0.6)%Q) by reflexivity.
  split; [reflexivity |]. split; [exact Hin |]. split; [exact Heq |].
  apply (proj1 (proj2 (reasonable_within_band "Delhi" 18000 10800 eq_refl Hin))).
  exact Heq.
Defined.

(** C2. For every configured city and every rent strictly below 0.6 times
    the city's average, the handler returns normally and the only verdict
    it shows is TooLow. *)
Theorem too_low_below_band (c : string) (avg r : Z) :
  rent_data !! c = Some avg ->
  (inject_Z r < inject_Z avg * 0.6)%Q ->
  (click c r).1 = Ok tt /\ verdicts (click c r).2 = [TooLow].
Proof.
  intros H Hlt. split; [apply (click_ok c avg r H) | now apply (too_low c avg)].
Qed.

Lemma too_low_below_band_witness :
  (click "Delhi" 10000).1 = Ok tt /\ verdicts (click "Delhi" 10000).2 = [TooLow].
Proof.
  apply (too_low_below_band "Delhi" 18000 10000); [reflexivity |].
  unfold Qlt; simpl; lia.
Defined.

(** C3. For every configured city and every rent strictly above 1.5 times
    the city's average, the handler returns normally and the only verdict
    it shows is TooHigh. *)
Theorem too_high_above_band (c : string) (avg r : Z) :
  rent_data !! c = Some avg ->
  (inject_Z r > inject_Z avg * 1.5)%Q ->
  (click c r).1 = Ok tt /\ verdicts (click c r).2 = [TooHigh].
Proof.
  intros H Hgt. split; [apply (click_ok c avg r H) | now apply (too_high c avg)].
Qed.

Lemma too_high_above_band_witness :
  (click "Mumbai" 40000).1 = Ok tt /\
  verdicts (click "Mumbai" 40000).2 = [TooHigh].
Proof.
  apply (too_high_above_band "Mumbai" 25000 40000); [reflexivity |].
  unfold Qlt; simpl; lia.
Defined.

(** C4. For every configured city and every rent inside the input range,
    the breakdown charted by the handler is exactly the two labelled
    amounts "Your Rent", the rent, and "Market Difference", the absolute
    difference between the city's average and the rent, in this order; and
    no amount of it is negative. *)
Theorem breakdown_exact (c : string) (avg r : Z) :
  rent_data !! c = Some avg ->
  in_range r ->
  comparisonBreakdown (click c r).2 =
    [("Your Rent"%string, r); ("Market Difference"%string, Z.abs (avg - r))] /\
  Forall (fun row => 0 <= row.2) (comparisonBreakdown (click c r).2).
Proof.
  intros H [Hmin _]. unfold min_value in Hmin.
  rewrite (click_reference c avg r H); cbn [fst snd]; rewrite breakdown_report.
  split; [reflexivity |].
  repeat constructor; simpl; lia.
Qed.

Lemma breakdown_exact_witness :
  comparisonBreakdown (click "Pune" 16000).2 =
    [("Your Rent"%string, 16000); ("Market Difference"%string, 0)] /\
  Forall (fun row => 0 <= row.2) (comparisonBreakdown (click "Pune" 16000).2).
Proof.
  apply (breakdown_exact "Pune" 16000 16000);
    [reflexivity | unfold in_range, min_value, max_value; lia].
Defined.

(** C5. For a city that is not a key of the table the handler raises
    [KeyError] for that city, Python's error for the failed subscript,
    which is the unknown-city failure of the specification: the exception
    is the outcome of the handler (nothing catches it, no default average
    is substituted), the page is left as it was and so shows no verdict. *)
Theorem unknown_city_raises (c : string) (r : Z) :
  rent_data !! c = None ->
  click c r = (Raise (KeyError c), []) /\
  verdicts (click c r).2 = [] /\
  forall s, globals_rent_data s = rent_data ->
            validate_rent c r s = (Raise (KeyError c), s).
Proof.
  intros H.
  assert (Hs : forall s, globals_rent_data s = rent_data ->
                         validate_rent c r s = (Raise (KeyError c), s)).
  { intros s Ht. unfold validate_rent, bind, getitem. now rewrite Ht, H. }
  unfold click. rewrite (Hs fresh eq_refl). auto.
Qed.

Lemma unknown_city_raises_witness :
  rent_data !! "Atlantis"%string = None /\
  click "Atlantis" 5000 = (Raise (KeyError "Atlantis"), []).
Proof.
  split; [reflexivity |].
  apply (unknown_city_raises "Atlantis" 5000). reflexivity.
Defined.

(** C6. For a city of the table and a rent inside the input range the
    handler always returns normally, and the page it renders shows exactly
    one verdict, one of TooLow, TooHigh and Reasonable. *)
Theorem exactly_one_verdict (c : string) (r : Z) :
  is_Some (rent_data !! c) ->
  in_range r ->
  (click c r).1 = Ok tt /\
  exists v : Verdict,
    verdicts (click c r).2 = [v] /\
    (v = TooLow \/ v = TooHigh \/ v = Reasonable).
Proof.
  intros [avg H] _.
  rewrite (click_reference c avg r H); cbn [fst snd]; rewrite verdicts_report.
  split; [reflexivity |]. exists (spec_classify avg r).
  split; [reflexivity |]. destruct (spec_classify avg r); auto.
Qed.

Lemma exactly_one_verdict_witness :
  is_Some (rent_data !! "Bangalore"%string) /\
  in_range 12500 /\
  (click "Bangalore" 12500).1 = Ok tt /\
  exists v : Verdict,
    verdicts (click "Bangalore" 12500).2 = [v] /\
    (v = TooLow \/ v = TooHigh \/ v = Reasonable).
Proof.
  assert (Hc : is_Some (rent_data !! "Bangalore"%string))
    by (exists 20000; reflexivity).
  assert (Hin : in_range 12500) by (unfold in_range, min_value, max_value; lia).
  split; [exact Hc |]. split; [exact Hin |].
  exact (exactly_one_verdict "Bangalore" 12500 Hc Hin).
Defined.

(** C7. The table built by the script maps Delhi to 18000, Mumbai to
    25000, Bangalore to 20000, Hyderabad to 15000 and Pune to 16000, and
    nothing else. Whenever the handler runs on it for a configured city,
    the average it reports in its markdown line, the one it classifies
    against and the one it subtracts in the breakdown are all the table's
    entry for that city, and the table is the same after the run. *)
Theorem average_is_table_lookup (s : script_state) (c : string) (avg r : Z) :
  globals_rent_data s = rent_data ->
  rent_data !! c = Some avg ->
  (rent_data = {[ "Delhi" := 18000; "Mumbai" := 25000; "Bangalore" := 20000;
                  "Hyderabad" := 15000; "Pune" := 16000 ]}%string) /\
  let '(res, s') := validate_rent c r s in
  res = Ok tt /\
  globals_rent_data s' = rent_data /\
  exists page,
    rendered s' = rendered s ++ page /\
    markdowns page =
      ["🏙️ **Average Rent in " +:+ c +:+ "**: ₹" +:+ str avg]%string /\
    verdicts page = [spec_classify avg r] /\
    comparisonBreakdown page =
      [("Your Rent"%string, r); ("Market Difference"%string, Z.abs (avg - r))].
Proof.
  intros Ht H. split.
  - apply map_eq. intros k. vm_compute. reflexivity.
  - rewrite (validate_rent_reference s c avg r Ht H).
    split; [reflexivity |]. split; [exact Ht |].
    exists (report c avg r).
    now rewrite markdowns_report, verdicts_report, breakdown_report.
Qed.

Lemma average_is_table_lookup_witness :
  rent_data !! "Hyderabad"%string = Some 15000 /\
  markdowns (click "Hyderabad" 9000).2 =
    ["🏙️ **Average Rent in Hyderabad**: ₹15000"]%string.
Proof.
  split; [reflexivity |].
  pose proof (average_is_table_lookup fresh "Hyderabad" 15000 9000
                eq_refl eq_refl) as [_ Hrun].
  unfold click.
  destruct (validate_rent "Hyderabad" 9000 fresh) as [res s'].
  destruct Hrun as (_ & _ & page & Hpage & Hmd & _).
  simpl in Hpage. rewrite Hpage. exact Hmd.
Defined.

(** C8. On the table of the script: Delhi at 10000 is TooLow; Delhi at
    10800, the 0.6 boundary, is Reasonable and not TooLow; Pune at 16000 is
    Reasonable with the breakdown Your Rent 16000, Market Difference 0. *)
Theorem reference_scenarios :
  verdicts (click "Delhi" 10000).2 = [TooLow] /\
  verdicts (click "Delhi" 10800).2 = [Reasonable] /\
  verdicts (click "Pune" 16000).2 = [Reasonable] /\
  comparisonBreakdown (click "Pune" 16000).2 =
    [("Your Rent"%string, 16000); ("Market Difference"%string, 0)].
Proof. repeat split; vm_compute; reflexivity. Qed.

(** C10. Every average of the table lies between 15000 (Hyderabad) and
    25000 (Mumbai). For every configured city the smallest rent the input
    accepts, 1000, is TooLow and the largest, 100000, is TooHigh; and each
    of the three verdicts is shown for some rent inside the input range. *)
Theorem all_verdicts_reachable (c : string) (avg : Z) :
  rent_data !! c = Some avg ->
  15000 <= avg <= 25000 /\
  rent_data !! "Hyderabad"%string = Some 15000 /\
  rent_data !! "Mumbai"%string = Some 25000 /\
  verdicts (click c min_value).2 = [TooLow] /\
  verdicts (click c max_value).2 = [TooHigh] /\
  forall v : Verdict, exists r, in_range r /\ verdicts (click c r).2 = [v].
Proof.
  intros H. pose proof (rent_data_positive c avg H) as Hpos.
  assert (Hlow : verdicts (click c min_value).2 = [TooLow]).
  { apply (too_low c avg); [exact H |]. unfold Qlt, min_value; simpl; lia. }
  assert (Hhigh : verdicts (click c max_value).2 = [TooHigh]).
  { apply (too_high c avg); [exact H |]. unfold Qlt, max_value; simpl; lia. }
  repeat (split; [first [exact Hpos | reflexivity | assumption] |]).
  intros [| |].
  - exists min_value. split; [unfold in_range, min_value, max_value; lia | exact Hlow].
  - exists max_value. split; [unfold in_range, min_value, max_value; lia | exact Hhigh].
  - exists avg. split; [unfold in_range, min_value, max_value; lia |].
    apply (reasonable c avg); [exact H | |]; unfold Qle; simpl; lia.
Qed.

Lemma all_verdicts_reachable_witness :
  rent_data !! "Pune"%string = Some 16000 /\
  verdicts (click "Pune" min_value).2 = [TooLow] /\
  verdicts (click "Pune" max_value).2 = [TooHigh].
Proof.
  split; [reflexivity |].
  pose proof (all_verdicts_reachable "Pune" 16000 eq_refl)
    as (_ & _ & _ & Hlow & Hhigh & _).
  split; [exact Hlow | exact Hhigh].
Defined.

(** * Further properties of the script *)

(** ** Stripping *)

Lemma blank_app (a b : PyStr.t) :
  PyStr.blank (a ++ b) = PyStr.blank a && PyStr.blank b.
Proof. apply forallb_app. Qed.

Lemma blank_rev (s : PyStr.t) : PyStr.blank (rev s) = PyStr.blank s.
Proof.
  induction s as [| c s IH]; [reflexivity |].
  simpl. rewrite blank_app, IH. simpl. now rewrite andb_true_r, andb_comm.
Qed.

Lemma lstrip_split (s : PyStr.t) :
  exists l, s = l ++ PyStr.lstrip s /\ PyStr.blank l = true.
Proof.
  induction s as [| c s (l & Hl & Hb)]; [now exists [] |].
  simpl. destruct (PyStr.isspace c) eqn:Hc.
  - exists (c :: l). simpl. rewrite Hc, Hb. split; [now f_equal | reflexivity].
  - now exists [].
Qed.

Lemma lstrip_head (s : PyStr.t) (c : PyStr.char) :
  head (PyStr.lstrip s) = Some c -> PyStr.isspace c = false.
Proof.
  induction s as [| d s IH]; [discriminate |].
  simpl. destruct (PyStr.isspace d) eqn:Hd; [exact IH |].
  now intros [= <-].
Qed.

Lemma lstrip_blank (s : PyStr.t) : PyStr.blank s = true -> PyStr.lstrip s = [].
Proof.
  induction s as [| c s IH]; [reflexivity |].
  simpl. destruct (PyStr.isspace c); [exact IH | discriminate].
Qed.

Lemma lstrip_fixed (s : PyStr.t) :
  (forall c, head s = Some c -> PyStr.isspace c = false) -> PyStr.lstrip s = s.
Proof.
  destruct s as [| c s]; [reflexivity |].
  intros H. simpl. now rewrite (H c eq_refl).
Qed.

Lemma rstrip_split (s : PyStr.t) :
  exists r, s = PyStr.rstrip s ++ r /\ PyStr.blank r = true.
Proof.
  destruct (lstrip_split (rev s)) as (l & Hl & Hb).
  exists (rev l). rewrite blank_rev. split; [| exact Hb].
  unfold PyStr.rstrip. rewrite <- rev_app_distr, <- Hl. now rewrite rev_involutive.
Qed.

Lemma last_rev_head {A} (x : list A) : last (rev x) = head x.
Proof. destruct x as [| a x]; [reflexivity |]. simpl. apply last_snoc. Qed.

Lemma head_rev_last {A} (x : list A) : head (rev x) = last x.
Proof. rewrite <- (rev_involutive x) at 2. now rewrite last_rev_head. Qed.

Lemma rstrip_last (s : PyStr.t) (c : PyStr.char) :
  last (PyStr.rstrip s) = Some c -> PyStr.isspace c = false.
Proof. unfold PyStr.rstrip. rewrite last_rev_head. apply lstrip_head. Qed.

Lemma rstrip_fixed (s : PyStr.t) :
  (forall c, last s = Some c -> PyStr.isspace c = false) -> PyStr.rstrip s = s.
Proof.
  intros H. unfold PyStr.rstrip. rewrite lstrip_fixed; [apply rev_involutive |].
  intros c. rewrite head_rev_last. apply H.
Qed.

Lemma rstrip_head (s : PyStr.t) (c : PyStr.char) :
  head (PyStr.rstrip s) = Some c -> head s = Some c.
Proof.
  destruct (rstrip_split s) as (r & Hr & _). intros H.
  rewrite Hr. destruct (PyStr.rstrip s); [discriminate | exact H].
Qed.

Lemma strip_blank (s : PyStr.t) : PyStr.blank s = true -> PyStr.strip s = [].
Proof. intros H. unfold PyStr.strip. now rewrite (lstrip_blank s H). Qed.

Lemma strip_head (s : PyStr.t) (c : PyStr.char) :
  head (PyStr.strip s) = Some c -> PyStr.isspace c = false.
Proof. intros H. apply rstrip_head in H. now apply lstrip_head in H. Qed.

Lemma strip_last (s : PyStr.t) (c : PyStr.char) :
  last (PyStr.strip s) = Some c -> PyStr.isspace c = false.
Proof. apply rstrip_last. Qed.

Lemma strip_split (s : PyStr.t) :
  exists l r, s = l ++ PyStr.strip s ++ r /\
              PyStr.blank l = true /\ PyStr.blank r = true.
Proof.
  destruct (lstrip_split s) as (l & Hl & Hbl).
  destruct (rstrip_split (PyStr.lstrip s)) as (r & Hr & Hbr).
  exists l, r. unfold PyStr.strip. now rewrite <- Hr.
Qed.

Lemma strip_fixed (s : PyStr.t) :
  (forall c, head s = Some c -> PyStr.isspace c = false) ->
  (forall c, last s = Some c -> PyStr.isspace c = false) ->
  PyStr.strip s = s.
Proof.
  intros Hh Hl. unfold PyStr.strip. rewrite (lstrip_fixed s Hh).
  now apply rstrip_fixed.
Qed.

(** ** Splitting into words *)

Lemma cons_word_app (w : PyStr.t) (ws ws' : list PyStr.t) :
  PyStr.cons_word w (ws ++ ws') = PyStr.cons_word w ws ++ ws'.
Proof. now destruct w. Qed.

Lemma split_space (c : PyStr.char) (s : PyStr.t) :
  PyStr.isspace c = true -> PyStr.split (c :: s) = PyStr.split s.
Proof.
  intros Hc. unfold PyStr.split. simpl.
  destruct (PyStr.split_aux s) as [w ws]. now rewrite Hc.
Qed.

Lemma split_aux_blank (s : PyStr.t) :
  PyStr.blank s = true -> PyStr.split_aux s = ([], []).
Proof.
  induction s as [| c s IH]; [reflexivity |].
  simpl. destruct (PyStr.isspace c); [| discriminate].
  intros H. now rewrite (IH H).
Qed.

Lemma split_blank_l (l s : PyStr.t) :
  PyStr.blank l = true -> PyStr.split (l ++ s) = PyStr.split s.
Proof.
  induction l as [| c l IH]; [reflexivity |].
  simpl. destruct (PyStr.isspace c) eqn:Hc; [| discriminate].
  intros H. rewrite (split_space c _ Hc). now apply IH.
Qed.

Lemma split_aux_blank_r (s r : PyStr.t) :
  PyStr.blank r = true -> PyStr.split_aux (s ++ r) = PyStr.split_aux s.
Proof.
  intros H. induction s as [| c s IH]; simpl.
  - now apply split_aux_blank.
  - now rewrite IH.
Qed.

Lemma split_aux_app_space (a b : PyStr.t) (c : PyStr.char) :
  PyStr.isspace c = true ->
  PyStr.split_aux (a ++ c :: b) =
    ((PyStr.split_aux a).1, (PyStr.split_aux a).2 ++ PyStr.split b).
Proof.
  intros Hc. induction a as [| x a IH]; simpl.
  - unfold PyStr.split. destruct (PyStr.split_aux b) as [w ws]. now rewrite Hc.
  - rewrite IH. destruct (PyStr.split_aux a) as [w ws]; simpl.
    destruct (PyStr.isspace x); [| reflexivity].
    now rewrite cons_word_app.
Qed.

(** Splitting distributes over a whitespace character. *)
Lemma split_app_space (a b : PyStr.t) (c : PyStr.char) :
  PyStr.isspace c = true ->
  PyStr.split (a ++ c :: b) = PyStr.split a ++ PyStr.split b.
Proof.
  intros Hc. unfold PyStr.split at 1 2. rewrite (split_aux_app_space a b c Hc).
  destruct (PyStr.split_aux a) as [w ws]; simpl. apply cons_word_app.
Qed.

Lemma split_nil_blank (s : PyStr.t) :
  PyStr.split s = [] <-> PyStr.blank s = true.
Proof.
  split.
  - induction s as [| c s IH]; [reflexivity |].
    simpl. destruct (PyStr.isspace c) eqn:Hc.
    + rewrite (split_space c s Hc). exact IH.
    + unfold PyStr.split. simpl. destruct (PyStr.split_aux s). now rewrite Hc.
  - intros H. unfold PyStr.split. now rewrite (split_aux_blank s H).
Qed.

(** A word: not empty and free of whitespace. *)
Lemma split_aux_words (s : PyStr.t) :
  forallb (fun c => negb (PyStr.isspace c)) (PyStr.split_aux s).1 = true /\
  Forall (fun w => w <> [] /\ forallb (fun c => negb (PyStr.isspace c)) w = true)
         (PyStr.split_aux s).2.
Proof.
  induction s as [| c s [IHw IHws]]; simpl; [now split |].
  destruct (PyStr.split_aux s) as [w ws]; simpl in *.
  destruct (PyStr.isspace c) eqn:Hc; simpl.
  - split; [reflexivity |]. destruct w as [| d w]; [exact IHws |].
    constructor; [now split | exact IHws].
  - now rewrite Hc.
Qed.

Lemma split_aux_concat (s : PyStr.t) :
  (PyStr.split_aux s).1 ++ concat (PyStr.split_aux s).2 =
    List.filter (fun c => negb (PyStr.isspace c)) s.
Proof.
  induction s as [| c s IH]; [reflexivity |].
  simpl. destruct (PyStr.split_aux s) as [w ws]; simpl in *.
  destruct (PyStr.isspace c); simpl.
  - rewrite <- IH. now destruct w.
  - now rewrite <- IH.
Qed.

(** ** Replacing a character *)

Lemma replace_char_app (old : PyStr.char) (new a b : PyStr.t) :
  PyStr.replace_char old new (a ++ b) =
    PyStr.replace_char old new a ++ PyStr.replace_char old new b.
Proof. apply flat_map_app. Qed.

Lemma replace_char_not_in (old : PyStr.char) (new s : PyStr.t) :
  ~ In old new -> ~ In old (PyStr.replace_char old new s).
Proof.
  intros Hnew H. apply in_flat_map in H as (c & _ & Hc).
  destruct (N.eqb_spec c old) as [E | Hne]; [now apply Hnew |].
  destruct Hc as [E | []]. now apply Hne.
Qed.

Lemma replace_char_id (old : PyStr.char) (new s : PyStr.t) :
  ~ In old s -> PyStr.replace_char old new s = s.
Proof.
  induction s as [| c s IH]; [reflexivity |].
  intros H. simpl. destruct (N.eqb_spec c old) as [E | Hne].
  - destruct H. now left.
  - simpl. f_equal. apply IH. intros Hin. apply H. now right.
Qed.

Lemma replace_char_keeps (old c : PyStr.char) (new s : PyStr.t) :
  c <> old -> In c s -> In c (PyStr.replace_char old new s).
Proof.
  intros Hne Hin. apply in_flat_map. exists c. split; [exact Hin |].
  destruct (N.eqb_spec c old); [contradiction | now left].
Qed.

Lemma replace_char_length1 (old new : PyStr.char) (s : PyStr.t) :
  length (PyStr.replace_char old [new] s) = length s.
Proof.
  induction s as [| c s IH]; [reflexivity |].
  simpl. rewrite length_app, IH. now destruct (c =? old)%N.
Qed.

Lemma not_in_by_test (c : PyStr.char) (s : PyStr.t) :
  existsb (N.eqb c) s = false -> ~ In c s.
Proof.
  intros H Hin. assert (existsb (N.eqb c) s = true); [| congruence].
  apply existsb_exists. exists c. split; [exact Hin | apply N.eqb_refl].
Qed.

(** ** The text put in an output box *)

Lemma formatted_no_newline (text : PyStr.t) :
  ~ In PyStr.newline (formatted text).
Proof. apply replace_char_not_in. now apply not_in_by_test. Qed.

Lemma nonspace_not_newline (c : PyStr.char) :
  PyStr.isspace c = false -> c <> PyStr.newline.
Proof. intros H ->. discriminate. Qed.

Lemma formatted_head (text : PyStr.t) (c : PyStr.char) :
  head (formatted text) = Some c -> PyStr.isspace c = false.
Proof.
  unfold formatted. pose proof (strip_head text) as Hh.
  destruct (PyStr.strip text) as [| d s]; [discriminate |].
  specialize (Hh d eq_refl). simpl.
  destruct (N.eqb_spec d PyStr.newline) as [-> | _]; [discriminate |].
  now intros [= <-].
Qed.

Lemma formatted_last (text : PyStr.t) (c : PyStr.char) :
  last (formatted text) = Some c -> PyStr.isspace c = false.
Proof.
  unfold formatted. generalize (strip_last text).
  generalize (PyStr.strip text). intros s.
  destruct s as [| d s _] using rev_ind; [discriminate |]. intros Hl.
  specialize (Hl d (last_snoc _ _)).
  rewrite replace_char_app. simpl. rewrite app_nil_r.
  destruct (N.eqb_spec d PyStr.newline) as [-> | _]; [discriminate |].
  rewrite last_snoc. now intros [= <-].
Qed.

Lemma formatted_fixed (text : PyStr.t) :
  ~ In PyStr.newline text ->
  (forall c, head text = Some c -> PyStr.isspace c = false) ->
  (forall c, last text = Some c -> PyStr.isspace c = false) ->
  formatted text = text.
Proof.
  intros Hn Hh Hl. unfold formatted. rewrite (strip_fixed text Hh Hl).
  now apply replace_char_id.
Qed.

Lemma strip_nil_blank (s : PyStr.t) :
  PyStr.strip s = [] <-> PyStr.blank s = true.
Proof.
  split; [| apply strip_blank].
  destruct (strip_split s) as (l & r & Hs & Hl & Hr). intros E.
  rewrite Hs, E, !blank_app, Hl, Hr. reflexivity.
Qed.

Lemma split_strip_eq (s : PyStr.t) :
  PyStr.split (PyStr.strip s) = PyStr.split s.
Proof.
  destruct (strip_split s) as (l & r & Hs & Hl & Hr).
  rewrite Hs at 2. rewrite (split_blank_l l _ Hl).
  unfold PyStr.split. now rewrite (split_aux_blank_r _ r Hr).
Qed.

Lemma split_length_pos (s : PyStr.t) :
  PyStr.blank s = false -> (1 <= length (PyStr.split s))%nat.
Proof.
  intros H. destruct (PyStr.split s) eqn:E; [| simpl; lia].
  apply split_nil_blank in E. congruence.
Qed.

Lemma two_words_intro (a b : PyStr.t) (c : PyStr.char) :
  PyStr.isspace c = true -> PyStr.blank a = false -> PyStr.blank b = false ->
  (2 <= length (PyStr.split (a ++ c :: b)))%nat.
Proof.
  intros Hc Ha Hb. rewrite (split_app_space a b c Hc), length_app.
  pose proof (split_length_pos a Ha). pose proof (split_length_pos b Hb). lia.
Qed.

Lemma two_words_elim (s : PyStr.t) :
  (2 <= length (PyStr.split s))%nat ->
  exists a c b, s = a ++ c :: b /\ PyStr.isspace c = true /\
                PyStr.blank a = false /\ PyStr.blank b = false.
Proof.
  induction s as [| x s IH].
  - unfold PyStr.split; simpl; lia.
  - destruct (PyStr.isspace x) eqn:Hx.
    + rewrite (split_space x s Hx). intros H.
      destruct (IH H) as (a & c & b & -> & Hc & Ha & Hb).
      exists (x :: a), c, b. repeat split; try assumption.
      simpl. now rewrite Ha, andb_false_r.
    + assert (Hsp : PyStr.split s = PyStr.cons_word (PyStr.split_aux s).1 (PyStr.split_aux s).2).
      { unfold PyStr.split. now destruct (PyStr.split_aux s). }
      unfold PyStr.split at 1. simpl.
      destruct (PyStr.split_aux s) as [w ws] eqn:E. rewrite Hx. simpl in *.
      intros H. destruct w as [| d w].
      * destruct s as [| c b]; [injection E as <-; simpl in H; lia |].
        simpl in E. destruct (PyStr.split_aux b) as [w' ws'] eqn:E'.
        destruct (PyStr.isspace c) eqn:Hc; [| discriminate].
        exists [x], c, b. repeat split; try assumption.
        -- simpl. now rewrite Hx.
        -- destruct (PyStr.blank b) eqn:Hb; [| reflexivity].
           rewrite (split_space c b Hc) in Hsp.
           apply split_nil_blank in Hb. rewrite Hb in Hsp.
           simpl in Hsp. rewrite <- Hsp in H. simpl in H. lia.
      * rewrite Hsp in IH. simpl in IH.
        destruct (IH ltac:(lia)) as (a & c & b & -> & Hc & Ha & Hb).
        exists (x :: a), c, b. repeat split; try assumption.
        simpl. now rewrite Hx.
Qed.

(** * Properties of tabs 1 and 2 *)

(** X1. [s.strip()] removes a run of whitespace at each end and nothing
    else: the string is the stripped string between two runs of
    whitespace, and the stripped string neither starts nor ends with a
    whitespace character. *)
Theorem strip_spec (s : PyStr.t) :
  (exists l r, s = l ++ PyStr.strip s ++ r /\
               PyStr.blank l = true /\ PyStr.blank r = true) /\
  (forall c, head (PyStr.strip s) = Some c -> PyStr.isspace c = false) /\
  (forall c, last (PyStr.strip s) = Some c -> PyStr.isspace c = false).
Proof.
  split; [apply strip_split |]. split; [apply strip_head | apply strip_last].
Qed.

Lemma strip_spec_witness :
  PyStr.strip (PyStr.of_ascii "  New Delhi ") = PyStr.of_ascii "New Delhi" /\
  forall c, head (PyStr.strip (PyStr.of_ascii "  New Delhi ")) = Some c ->
            PyStr.isspace c = false.
Proof.
  split; [reflexivity |].
  exact (proj1 (proj2 (strip_spec (PyStr.of_ascii "  New Delhi ")))).
Defined.

(** X2. [s.split()] returns words: none is empty, none contains a
    whitespace character, and put end to end they are the non-whitespace
    characters of the string, in order. *)
Theorem split_words (s : PyStr.t) :
  Forall (fun w => w <> [] /\ forallb (fun c => negb (PyStr.isspace c)) w = true)
         (PyStr.split s) /\
  concat (PyStr.split s) = List.filter (fun c => negb (PyStr.isspace c)) s.
Proof.
  pose proof (split_aux_words s) as [Hw Hws].
  pose proof (split_aux_concat s) as Hc.
  unfold PyStr.split. destruct (PyStr.split_aux s) as [w ws]; simpl in *.
  destruct w as [| d w]; simpl in *; [now split |].
  split; [| exact Hc]. constructor; [now split | exact Hws].
Qed.

(** X3. The [strip] of line 123 changes nothing: splitting the stripped
    location gives the words of the location itself, so the location is
    found too vague exactly when it has fewer than two words. *)
Theorem strip_before_split_redundant (location : PyStr.t) :
  PyStr.split (PyStr.strip location) = PyStr.split location /\
  too_vague location = (length (PyStr.split location) <? 2)%nat.
Proof.
  unfold too_vague. now rewrite split_strip_eq.
Qed.

(** X4. A location escapes the vagueness warning exactly when some
    whitespace character of it has a non-whitespace character somewhere
    before it and one somewhere after it. *)
Theorem too_vague_spec (location : PyStr.t) :
  too_vague location = false <->
  exists a c b, location = a ++ c :: b /\ PyStr.isspace c = true /\
                PyStr.blank a = false /\ PyStr.blank b = false.
Proof.
  unfold too_vague. rewrite split_strip_eq, Nat.ltb_ge. split.
  - apply two_words_elim.
  - intros (a & c & b & -> & Hc & Ha & Hb). now apply two_words_intro.
Qed.

Lemma too_vague_spec_witness :
  too_vague (PyStr.of_ascii "Saket, New Delhi") = false.
Proof.
  apply (proj2 (too_vague_spec (PyStr.of_ascii "Saket, New Delhi"))).
  exists (PyStr.of_ascii "Saket,"), PyStr.space, (PyStr.of_ascii "New Delhi").
  repeat split; reflexivity.
Defined.

(** X5. The map URL never contains a space, and it is exactly 43
    characters longer than the location: each space of the location
    becomes one plus sign and no other character is added or dropped. *)
Theorem map_url_no_space (location : PyStr.t) :
  ~ In PyStr.space (map_url location) /\
  length (map_url location) = (43 + length location)%nat.
Proof.
  unfold map_url. split.
  - rewrite !in_app_iff. intros [H | [H | H]]; revert H.
    + now apply not_in_by_test.
    + apply replace_char_not_in. now apply not_in_by_test.
    + now apply not_in_by_test.
  - rewrite !length_app, replace_char_length1. simpl. lia.
Qed.

Lemma map_url_no_space_witness :
  ~ In PyStr.space (map_url (PyStr.of_ascii "South Delhi")) /\
  length (map_url (PyStr.of_ascii "South Delhi")) =
    (43 + length (PyStr.of_ascii "South Delhi"))%nat.
Proof. exact (map_url_no_space (PyStr.of_ascii "South Delhi")). Defined.

Lemma replace_char_lookup (old new : PyStr.char) (s : list PyStr.char)
    (i : nat) (c : PyStr.char) :
  s !! i = Some c ->
  PyStr.replace_char old [new] s !! i =
    Some (if N.eqb c old then new else c).
Proof.
  revert i. induction s as [| d s IH]; intros i; [discriminate |].
  destruct i as [| i]; simpl.
  - intros [= ->]. now destruct (N.eqb c old).
  - intros H. destruct (N.eqb d old); simpl; now apply IH.
Qed.

(** X6. Apart from the space, the location goes into the map URL
    unescaped and in place: the character at position i of the location
    is the character at position 30 + i of the URL, unchanged unless it
    is a space, which is a plus sign there. So an ampersand, a quote or a
    line break typed into the location is in the URL as typed. *)
Theorem map_url_unescaped (location : list PyStr.char) (i : nat)
    (c : PyStr.char) :
  location !! i = Some c ->
  (map_url location : list PyStr.char) !! (30 + i)%nat =
    Some (if N.eqb c PyStr.space then PyStr.plus else c).
Proof.
  intros H. unfold map_url.
  rewrite lookup_app_r by (simpl; lia).
  replace (30 + i - length (PyStr.of_ascii "https://www.google.com/maps?q="))%nat
    with i by (simpl; lia).
  rewrite lookup_app_l.
  - now apply replace_char_lookup.
  - rewrite replace_char_length1. apply lookup_lt_is_Some. now exists c.
Qed.

Lemma map_url_unescaped_witness :
  (PyStr.of_ascii "Pune&zoom=1" : list PyStr.char) !! 4%nat = Some 38%N /\
  (map_url (PyStr.of_ascii "Pune&zoom=1") : list PyStr.char) !! 34%nat =
    Some 38%N.
Proof.
  split; [reflexivity |].
  exact (map_url_unescaped (PyStr.of_ascii "Pune&zoom=1") 4 38%N eq_refl).
Defined.

(** X7. The text shown in an output box contains no line break, and it
    neither starts nor ends with a whitespace character, whatever the
    chain returned. *)
Theorem formatted_clean (text : PyStr.t) :
  ~ In PyStr.newline (formatted text) /\
  (forall c, head (formatted text) = Some c -> PyStr.isspace c = false) /\
  (forall c, last (formatted text) = Some c -> PyStr.isspace c = false).
Proof.
  split; [apply formatted_no_newline |].
  split; [apply formatted_head | apply formatted_last].
Qed.

Lemma formatted_clean_witness :
  ~ In PyStr.newline (formatted (PyStr.of_ascii " Scam Probability: 80%
Reasons:
")).
Proof.
  exact (proj1 (formatted_clean (PyStr.of_ascii " Scam Probability: 80%
Reasons:
"))).
Defined.

(** X8. Formatting is idempotent: a text that was formatted once is left
    as it is by a second formatting. *)
Theorem formatted_idempotent (text : PyStr.t) :
  formatted (formatted text) = formatted text.
Proof.
  apply formatted_fixed;
    [apply formatted_no_newline | apply formatted_head | apply formatted_last].
Qed.

(** X9. A text without line break that neither starts nor ends with
    whitespace is shown as the chain returned it: nothing of it is
    escaped, HTML markup included. *)
Theorem formatted_verbatim (text : PyStr.t) :
  ~ In PyStr.newline text ->
  (forall c, head text = Some c -> PyStr.isspace c = false) ->
  (forall c, last text = Some c -> PyStr.isspace c = false) ->
  formatted text = text.
Proof. apply formatted_fixed. Qed.

Lemma formatted_verbatim_witness :
  formatted (PyStr.of_ascii "<b>Scam Probability: 90%</b>") =
    PyStr.of_ascii "<b>Scam Probability: 90%</b>".
Proof.
  apply (formatted_verbatim (PyStr.of_ascii "<b>Scam Probability: 90%</b>")).
  - now apply not_in_by_test.
  - now intros c [= <-].
  - now intros c [= <-].
Defined.

Lemma truthy_true (s : PyStr.t) : PyStr.truthy s = true <-> s <> [].
Proof. destruct s; simpl; split; congruence. Qed.

Lemma all_filled_true (desc price location : PyStr.t) :
  all_filled desc price location = true <->
  desc <> [] /\ price <> [] /\ location <> [].
Proof.
  unfold all_filled. rewrite !andb_true_iff, !truthy_true. tauto.
Qed.

Lemma all_filled_false (desc price location : PyStr.t) :
  all_filled desc price location = false <->
  desc = [] \/ price = [] \/ location = [].
Proof.
  unfold all_filled.
  destruct desc, price, location; simpl; split; intros H;
    try reflexivity; try discriminate; auto;
    destruct H as [H | [H | H]]; discriminate.
Qed.

Lemma output_box_no_newline (body : PyStr.t) :
  ~ In PyStr.newline body -> ~ In PyStr.newline (output_box body).
Proof.
  intros Hb. unfold output_box. rewrite !in_app_iff. intros [H | [H | H]].
  - revert H. now apply not_in_by_test.
  - now apply Hb.
  - revert H. now apply not_in_by_test.
Qed.

(** X10. With a field left empty, a run of tab 1 never calls the
    detection chain and never offers the map: a click on Analyze renders
    the warning "Please fill all fields." and nothing else, and a run
    without that click renders nothing. *)
Theorem tab1_missing_field {error : Type}
    (chain : PyStr.t -> PyStr.t -> PyStr.t -> error + PyStr.t)
    (desc price location : PyStr.t) (analyze_clicked map_clicked : bool) :
  desc = [] \/ price = [] \/ location = [] ->
  tab1 chain desc price location analyze_clicked map_clicked =
    (Finished,
     if analyze_clicked then [st_warning_label "Please fill all fields."]
     else []).
Proof.
  intros H. apply all_filled_false in H.
  unfold tab1, analyze_listing, view_on_map. rewrite H.
  now destruct analyze_clicked.
Qed.

Lemma tab1_missing_field_witness :
  tab1 (fun _ _ _ => inl tt) (PyStr.of_ascii "2BHK near metro") []
       (PyStr.of_ascii "Pune") true true =
    (Finished, [st_warning_label "Please fill all fields."]).
Proof.
  apply (tab1_missing_field (fun _ _ _ => inl tt)
           (PyStr.of_ascii "2BHK near metro") [] (PyStr.of_ascii "Pune")
           true true).
  right; left; reflexivity.
Defined.

(** X11. Every HTML body that a run of tab 1 renders is one of two. It is
    the output box of the detection chain's answer to the three fields as
    typed, which needs a click on Analyze and contains no line break; or
    it is the map block of lines 115-121 with the map URL of the location
    as the source of its iframe, which needs a click on the map button and
    three fields that are not empty, and needs no click on Analyze. *)
Theorem tab1_html_bodies {error : Type}
    (chain : PyStr.t -> PyStr.t -> PyStr.t -> error + PyStr.t)
    (desc price location : PyStr.t) (analyze_clicked map_clicked : bool)
    (w : widget) (body : PyStr.t) :
  In w (tab1 chain desc price location analyze_clicked map_clicked).2 ->
  html_body w = Some body ->
  (analyze_clicked = true /\
   (exists text, chain desc price location = inr text /\
                 body = output_box (formatted text)) /\
   ~ In PyStr.newline body) \/
  (map_clicked = true /\ all_filled desc price location = true /\
   body = map_container_html (map_url location)).
Proof.
  unfold tab1, analyze_listing, view_on_map.
  destruct analyze_clicked, (all_filled desc price location),
    (chain desc price location) as [e | text], map_clicked,
    (too_vague location); simpl;
    intros H; repeat (destruct H as [H | H]; try subst w);
    try contradiction; simpl; intros [= <-];
    first
      [ right; repeat split; reflexivity
      | left; split; [reflexivity |]; split; [now exists text |];
        apply output_box_no_newline, formatted_no_newline ].
Qed.

Lemma tab1_html_bodies_witness :
  In (st_map_container (map_url (PyStr.of_ascii "Pune")))
     (tab1 (fun _ _ _ => @inl unit _ tt) (PyStr.of_ascii "flat")
           (PyStr.of_ascii "5000") (PyStr.of_ascii "Pune") false true).2 /\
  ((false = true /\
    (exists text, (fun _ _ _ => @inl unit PyStr.t tt)
                    (PyStr.of_ascii "flat") (PyStr.of_ascii "5000")
                    (PyStr.of_ascii "Pune") = inr text /\
                  map_container_html (map_url (PyStr.of_ascii "Pune")) =
                    output_box (formatted text)) /\
    ~ In PyStr.newline (map_container_html (map_url (PyStr.of_ascii "Pune")))) \/
   (true = true /\
    all_filled (PyStr.of_ascii "flat") (PyStr.of_ascii "5000")
               (PyStr.of_ascii "Pune") = true /\
    map_container_html (map_url (PyStr.of_ascii "Pune")) =
      map_container_html (map_url (PyStr.of_ascii "Pune")))).
Proof.
  assert (Hin : In (st_map_container (map_url (PyStr.of_ascii "Pune")))
                  (tab1 (fun _ _ _ => @inl unit _ tt) (PyStr.of_ascii "flat")
                        (PyStr.of_ascii "5000") (PyStr.of_ascii "Pune")
                        false true).2)
    by (simpl; right; left; reflexivity).
  split; [exact Hin |].
  exact (tab1_html_bodies (fun _ _ _ => @inl unit _ tt)
           (PyStr.of_ascii "flat") (PyStr.of_ascii "5000")
           (PyStr.of_ascii "Pune") false true _ _ Hin eq_refl).
Defined.

(** X12. A run of tab 1 fails only through the detection chain: Analyze
    was clicked, the three fields are not empty, the chain raised that
    very exception, and nothing is rendered, neither the map button nor
    the vagueness warning. *)
Theorem tab1_crash_only_from_chain {error : Type}
    (chain : PyStr.t -> PyStr.t -> PyStr.t -> error + PyStr.t)
    (desc price location : PyStr.t) (analyze_clicked map_clicked : bool)
    (e : error) (page : list widget) :
  tab1 chain desc price location analyze_clicked map_clicked =
    (Crashed e, page) ->
  page = [] /\ analyze_clicked = true /\
  chain desc price location = inl e /\
  desc <> [] /\ price <> [] /\ location <> [].
Proof.
  unfold tab1, analyze_listing.
  destruct analyze_clicked; [| discriminate].
  destruct (all_filled desc price location) eqn:Hf; [| discriminate].
  apply all_filled_true in Hf.
  destruct (chain desc price location) as [e' | text]; [| discriminate].
  intros [= <- <-]. tauto.
Qed.

Lemma tab1_crash_only_from_chain_witness :
  tab1 (fun _ _ _ => inl 503%nat) (PyStr.of_ascii "flat")
       (PyStr.of_ascii "5000") (PyStr.of_ascii "Pune") true true =
    (Crashed 503%nat, []) /\
  (fun _ _ _ => @inl nat PyStr.t 503%nat)
    (PyStr.of_ascii "flat") (PyStr.of_ascii "5000") (PyStr.of_ascii "Pune") =
    inl 503%nat.
Proof.
  split; [reflexivity |].
  exact (proj1 (proj2 (proj2
    (tab1_crash_only_from_chain (fun _ _ _ => inl 503%nat)
       (PyStr.of_ascii "flat") (PyStr.of_ascii "5000") (PyStr.of_ascii "Pune")
       true true 503%nat [] eq_refl)))).
Defined.

(** X13. Tab 1 takes a field as filled as soon as it is not empty,
    whitespace included: with three non-empty fields a click on Analyze
    calls the detection chain on the fields as typed, the run ends as the
    chain does, and "Please fill all fields." is not shown. *)
Theorem tab1_nonempty_is_filled {error : Type}
    (chain : PyStr.t -> PyStr.t -> PyStr.t -> error + PyStr.t)
    (desc price location : PyStr.t) (map_clicked : bool) :
  desc <> [] -> price <> [] -> location <> [] ->
  (tab1 chain desc price location true map_clicked).1 =
    match chain desc price location with
    | inr _ => Finished
    | inl e => Crashed e
    end /\
  ~ In (st_warning_label "Please fill all fields.")
       (tab1 chain desc price location true map_clicked).2.
Proof.
  intros Hd Hp Hl.
  assert (Hf : all_filled desc price location = true)
    by now apply all_filled_true.
  unfold tab1, analyze_listing, view_on_map. rewrite Hf.
  destruct (chain desc price location) as [e | text]; simpl; [tauto |].
  split; [reflexivity |].
  destruct map_clicked, (too_vague location); simpl;
    intros H; repeat (destruct H as [H | H]; try discriminate H);
    contradiction.
Qed.

Lemma tab1_nonempty_is_filled_witness :
  (tab1 (fun d _ _ => @inr unit _ d) [PyStr.space] [PyStr.space]
        [PyStr.space] true false).1 = Finished /\
  ~ In (st_warning_label "Please fill all fields.")
       (tab1 (fun d _ _ => @inr unit _ d) [PyStr.space] [PyStr.space]
             [PyStr.space] true false).2.
Proof.
  apply (tab1_nonempty_is_filled (fun d _ _ => @inr unit _ d)
           [PyStr.space] [PyStr.space] [PyStr.space] false); discriminate.
Defined.

(** X14. In a run of tab 1 that ends normally, the map button is rendered
    exactly when the three fields are not empty; a map is embedded exactly
    when, in addition, the map button was clicked, and its source is the
    map URL of the location; the vagueness warning is rendered exactly
    when the fields are not empty and the location is too vague. A vague
    location does not withhold the map. *)
Theorem tab1_map_part {error : Type}
    (chain : PyStr.t -> PyStr.t -> PyStr.t -> error + PyStr.t)
    (desc price location : PyStr.t) (analyze_clicked map_clicked : bool)
    (page : list widget) :
  tab1 chain desc price location analyze_clicked map_clicked =
    (Finished, page) ->
  (In (st_button "🗺️ View on Google Map") page <->
     all_filled desc price location = true) /\
  (forall src, In (st_map_container src) page <->
     all_filled desc price location = true /\ map_clicked = true /\
     src = map_url location) /\
  (In (st_warning_label
         "⚠️ Location seems too vague. Add proper city and area name.") page <->
     all_filled desc price location = true /\ too_vague location = true).
Proof.
  unfold tab1, analyze_listing, view_on_map.
  destruct analyze_clicked, (all_filled desc price location),
    (chain desc price location) as [e | text], map_clicked,
    (too_vague location); simpl; intros [= <-];
    (split; [| split; [intros src |]]); simpl; split;
    try (intros H; repeat (destruct H as [H | H]; try discriminate H);
         try contradiction; try (injection H as <-); tauto);
    try (intros (? & ? & ->); tauto);
    try (intros H; discriminate H);
    try (intros (? & ? & ?); discriminate);
    try (intros (? & ?); discriminate);
    tauto.
Qed.

Lemma tab1_map_part_witness :
  In (st_map_container (map_url (PyStr.of_ascii "Pune")))
     (tab1 (fun _ _ _ => @inl unit _ tt) (PyStr.of_ascii "flat")
           (PyStr.of_ascii "5000") (PyStr.of_ascii "Pune") false true).2 /\
  In (st_warning_label
        "⚠️ Location seems too vague. Add proper city and area name.")
     (tab1 (fun _ _ _ => @inl unit _ tt) (PyStr.of_ascii "flat")
           (PyStr.of_ascii "5000") (PyStr.of_ascii "Pune") false true).2.
Proof.
  pose proof (tab1_map_part (fun _ _ _ => @inl unit _ tt)
                (PyStr.of_ascii "flat") (PyStr.of_ascii "5000")
                (PyStr.of_ascii "Pune") false true _ eq_refl)
    as (_ & Hmap & Hvague).
  split.
  - apply Hmap. repeat split; reflexivity.
  - apply Hvague. split; reflexivity.
Defined.

(** X15. Tab 2 asks the expert chain exactly when the question has a
    character that is not whitespace. A question of whitespace only, the
    empty one included, gets "Type your question first." and the chain is
    not called; any other question goes to the chain as typed, not
    stripped, and the run ends as the chain does, with the answer in an
    output box. *)
Theorem tab2_spec {error : Type} (chain : PyStr.t -> error + PyStr.t)
    (user_q : PyStr.t) :
  tab2 chain user_q true =
    if PyStr.blank user_q then
      (Finished, [st_warning_label "Type your question first."])
    else
      match chain user_q with
      | inr response =>
          (Finished, [st_success_label "✅ Response:";
                      st_html (output_box (formatted response))])
      | inl e => (Crashed e, [])
      end.
Proof.
  unfold tab2. destruct (PyStr.blank user_q) eqn:Hb.
  - now rewrite (strip_blank user_q Hb).
  - destruct (PyStr.strip user_q) eqn:E; [| reflexivity].
    apply strip_nil_blank in E. congruence.
Qed.

(** * Further properties of tab 3 *)

Lemma spec_classify_monotone (avg r1 r2 : Z) :
  0 <= avg -> r1 <= r2 ->
  rank (spec_classify avg r1) <= rank (spec_classify avg r2).
Proof.
  intros Hpos Hle. unfold spec_classify.
  destruct (inject_Z r1 ?= inject_Z avg * 0.6)%Q eqn:E1;
  destruct (inject_Z r1 ?= inject_Z avg * 1.5)%Q eqn:E2;
  destruct (inject_Z r2 ?= inject_Z avg * 0.6)%Q eqn:E3;
  destruct (inject_Z r2 ?= inject_Z avg * 1.5)%Q eqn:E4;
  simpl; try lia; exfalso;
  unfold Qcompare in *; simpl in *;
  change (1 * 10)%positive with 10%positive in *;
  rewrite ?Z.compare_eq_iff, ?Z.compare_lt_iff, ?Z.compare_gt_iff in *; lia.
Qed.

(** X16. For every configured city the verdict is monotone in the rent:
    with TooLow below Reasonable below TooHigh, a higher rent never gets a
    lower verdict. *)
Theorem verdict_monotone (c : string) (avg r1 r2 : Z) (v1 v2 : Verdict) :
  rent_data !! c = Some avg ->
  r1 <= r2 ->
  verdicts (click c r1).2 = [v1] ->
  verdicts (click c r2).2 = [v2] ->
  rank v1 <= rank v2.
Proof.
  intros H Hle. pose proof (rent_data_positive c avg H) as Hpos.
  rewrite !(click_reference c avg _ H); cbn [snd]. rewrite !verdicts_report.
  intros [= <-] [= <-]. apply spec_classify_monotone; lia.
Qed.

Lemma verdict_monotone_witness :
  rank Reasonable <= rank TooHigh.
Proof.
  apply (verdict_monotone "Mumbai" 25000 30000 40000 Reasonable TooHigh);
    [reflexivity | lia | reflexivity | reflexivity].
Defined.

(** X17. For every configured city and every rent, the two amounts of the
    pie chart add up to the larger of the average and twice the rent minus
    the average; so for a rent up to the average the whole pie is the
    average, and the rent's slice is its share of the average. *)
Theorem pie_total (c : string) (avg r : Z) :
  rent_data !! c = Some avg ->
  foldr Z.add 0 (map snd (comparisonBreakdown (click c r).2)) =
    Z.max avg (2 * r - avg) /\
  (r <= avg ->
   foldr Z.add 0 (map snd (comparisonBreakdown (click c r).2)) = avg).
Proof.
  intros H. rewrite (click_reference c avg r H). cbn [snd].
  rewrite breakdown_report. simpl. lia.
Qed.

Lemma pie_total_witness :
  foldr Z.add 0 (map snd (comparisonBreakdown (click "Delhi" 12000).2)) =
    18000.
Proof.
  apply (proj2 (pie_total "Delhi" 18000 12000 eq_refl)). lia.
Defined.

Lemma options_of_keys (c : string) (avg : Z) :
  rent_data !! c = Some avg -> c ∈ city_options.
Proof.
  revert c avg. apply rent_data_cases; unfold city_options;
    rewrite !elem_of_cons; tauto.
Qed.

(** X18. The options of the city select box are exactly the keys of
    [rent_data]; hence a click on Validate Rent with a city the select box
    offers and a rent the number input delivers never raises. *)
Theorem selectbox_matches_table (c : string) :
  (c ∈ city_options <-> is_Some (rent_data !! c)) /\
  (c ∈ city_options -> forall r, in_range r -> (click c r).1 = Ok tt).
Proof.
  split; [split |].
  - apply city_options_configured.
  - intros [avg H]. exact (options_of_keys c avg H).
  - intros Hc r _. destruct (city_options_configured c Hc) as [avg H].
    exact (click_ok c avg r H).
Qed.

Lemma selectbox_matches_table_witness :
  "Hyderabad"%string ∈ city_options /\ in_range 99500 /\
  (click "Hyderabad" 99500).1 = Ok tt.
Proof.
  assert (Hc : "Hyderabad"%string ∈ city_options)
    by (unfold city_options; rewrite !elem_of_cons; tauto).
  assert (Hr : in_range 99500) by (unfold in_range, min_value, max_value; lia).
  split; [exact Hc |]. split; [exact Hr |].
  exact (proj2 (selectbox_matches_table "Hyderabad") Hc 99500 Hr).
Defined.

(** ** Converting a 64-bit integer to a float *)

Lemma digits2_pos_pow (p : positive) :
  2 ^ Zpos (digits2_pos p) <= 2 * Zpos p.
Proof.
  induction p as [p IH | p IH |]; simpl digits2_pos;
    rewrite ?Pos2Z.inj_succ, ?Z.pow_succ_r by lia; lia.
Qed.

Lemma Zdigits2_le (m k : Z) :
  0 <= k -> 0 <= m < 2 ^ k -> Zdigits2 m <= k.
Proof.
  intros Hk [Hm Hlt]. destruct m as [| p | p]; simpl; [lia | | lia].
  pose proof (digits2_pos_pow p) as Hp.
  assert (H : 2 ^ Zpos (digits2_pos p) < 2 ^ (k + 1)).
  { rewrite Z.pow_add_r by lia. lia. }
  apply Z.pow_lt_mono_r_iff in H; lia.
Qed.

Lemma iter_pos_invariant {A} (f : A -> A) (P : A -> Prop) :
  (forall x, P x -> P (f x)) ->
  forall n x, P x -> P (SpecFloat.iter_pos f n x).
Proof.
  intros Hf. induction n as [n IH | n IH |]; intros x Hx; simpl; auto.
Qed.

Lemma shr_1_m (M : Z) (mrs : shr_record) :
  0 <= shr_m mrs <= M -> 0 <= shr_m (shr_1 mrs) <= M.
Proof.
  destruct mrs as [m r s]. simpl.
  destruct m as [| [p | p |] | p]; simpl; lia.
Qed.

Lemma shr_bounds (M : Z) (mrs : shr_record) (e n : Z) :
  0 <= shr_m mrs <= M ->
  0 <= shr_m (fst (shr mrs e n)) <= M /\
  snd (shr mrs e n) <= Z.max e (e + n).
Proof.
  intros H. unfold shr. destruct n as [| p | p]; simpl; try (split; lia).
  split; [| lia].
  apply (iter_pos_invariant shr_1 (fun x => 0 <= shr_m x <= M)); [| exact H].
  intros x. apply shr_1_m.
Qed.

Lemma fexp_eq (x : Z) : fexp 53 1024 x = Z.max (x - 53) (- 1074).
Proof. reflexivity. Qed.

Lemma shr_fexp_bounds (m e k E : Z) (l : location) :
  0 <= k -> 0 <= m < 2 ^ k -> e <= E -> 0 <= k + E ->
  0 <= shr_m (fst (shr_fexp 53 1024 m e l)) < 2 ^ k /\
  snd (shr_fexp 53 1024 m e l) <= Z.max E (k + E - 53).
Proof.
  intros Hk Hm He HkE. unfold shr_fexp.
  pose proof (Zdigits2_le m k Hk Hm) as Hd.
  assert (Hr : 0 <= shr_m (shr_record_of_loc m l) <= m).
  { destruct l as [| []]; simpl; lia. }
  destruct (shr_bounds m (shr_record_of_loc m l) e
              (fexp 53 1024 (Zdigits2 m + e) - e) Hr) as [H1 H2].
  rewrite fexp_eq in *.
  destruct (shr (shr_record_of_loc m l) e
              (Z.max (Zdigits2 m + e - 53) (-1074) - e)) as [mrs' e'].
  simpl in *. split; lia.
Qed.

Lemma round_nearest_even_bounds (m : Z) (l : location) :
  m <= round_nearest_even m l <= m + 1.
Proof.
  destruct l as [| []]; simpl; try lia. destruct (Z.even m); lia.
Qed.

Lemma binary_round_aux_finite (sx s : bool) (m e : Z) :
  0 <= m < 2 ^ 116 -> e <= 0 ->
  binary_round_aux 53 1024 sx m e loc_Exact <> S754_infinity s.
Proof.
  intros Hm He. unfold binary_round_aux.
  pose proof (shr_fexp_bounds m e 116 0 loc_Exact ltac:(lia) Hm He ltac:(lia))
    as [Hm1 He1].
  destruct (shr_fexp 53 1024 m e loc_Exact) as [mrs' e']; simpl in Hm1, He1.
  pose proof (round_nearest_even_bounds (shr_m mrs') (loc_of_shr_record mrs'))
    as Hr.
  set (mr := round_nearest_even (shr_m mrs') (loc_of_shr_record mrs')) in *.
  assert (Hmr : 0 <= mr < 2 ^ 117).
  { change (2 ^ 117) with (2 * 2 ^ 116). lia. }
  pose proof (shr_fexp_bounds mr e' 117 63 loc_Exact ltac:(lia) Hmr
                ltac:(lia) ltac:(lia)) as [Hm2 He2].
  destruct (shr_fexp 53 1024 mr e' loc_Exact) as [mrs'' e'']; simpl in Hm2, He2.
  destruct (shr_m mrs'') as [| q | q]; try discriminate.
  destruct (e'' <=? 1024 - 53) eqn:E; [discriminate |].
  apply Z.leb_gt in E. lia.
Qed.

Lemma iter_xO (p k : positive) :
  Zpos (Pos.iter xO p k) = Zpos p * 2 ^ Zpos k.
Proof.
  induction k as [| k IH] using Pos.peano_ind.
  - simpl. lia.
  - rewrite Pos.iter_succ, Pos2Z.inj_succ, Z.pow_succ_r by lia.
    rewrite Pos2Z.inj_xO, IH. lia.
Qed.

Lemma binary_normalize_finite (n : Z) (s : bool) :
  - 2 ^ 63 <= n < 2 ^ 63 ->
  binary_normalize 53 1024 n 0 false <> S754_infinity s.
Proof.
  intros Hn.
  assert (Hpos : forall sx p, Zpos p <= 2 ^ 63 ->
            binary_round 53 1024 sx p 0 <> S754_infinity s).
  { intros sx p Hp. unfold binary_round, shl_align.
    pose proof (Zdigits2_le (Zpos p) 64 ltac:(lia) ltac:(lia)) as Hd.
    simpl in Hd.
    assert (Hf : - 52 <= fexp 53 1024 (Zpos (digits2_pos p) + 0) <= 11).
    { rewrite fexp_eq. lia. }
    destruct (fexp 53 1024 (Zpos (digits2_pos p) + 0) - 0) as [| d | d] eqn:E.
    - apply binary_round_aux_finite; lia.
    - apply binary_round_aux_finite; lia.
    - apply binary_round_aux_finite; [| lia].
      rewrite iter_xO. split; [lia |].
      assert (Hd52 : Zpos d <= 52) by lia.
      assert (H2 : 2 ^ Zpos d <= 2 ^ 52) by (apply Z.pow_le_mono_r; lia).
      assert (H3 : Zpos p * 2 ^ Zpos d <= 2 ^ 63 * 2 ^ 52)
        by (apply Z.mul_le_mono_nonneg; lia).
      change (2 ^ 116) with (2 * (2 ^ 63 * 2 ^ 52)). lia. }
  destruct n as [| p | p]; simpl; [discriminate | |]; apply Hpos; lia.
Qed.

Lemma of_int_int64 (n : Z) : int64 n -> exists f, PyFloat.of_int n = Ok f.
Proof.
  intros Hn. unfold PyFloat.of_int, PyFloat.prec, PyFloat.emax.
  pose proof (fun s => binary_normalize_finite n s Hn) as Hfin.
  destruct (binary_normalize 53 1024 n 0 false) as [s | s | | s m e];
    try (eexists; reflexivity).
  now destruct (Hfin s).
Qed.

(** X19. On any table, for a rent the number input delivers and a city
    whose average and whose distance to the rent are 64-bit integers, as
    the chart's column holds them, the handler raises exactly when the
    city is missing from the table: for a missing city it raises
    [KeyError] for that city, having rendered nothing and changed nothing;
    for a city of the table it returns. *)
Theorem validate_rent_raises_iff_missing (c : string) (r : Z) (s : script_state) :
  in_range r ->
  (forall avg, globals_rent_data s !! c = Some avg ->
               int64 avg /\ int64 (Z.abs (avg - r))) ->
  (globals_rent_data s !! c = None ->
   validate_rent c r s = (Raise (KeyError c), s)) /\
  (is_Some (globals_rent_data s !! c) -> (validate_rent c r s).1 = Ok tt).
Proof.
  intros _ Hfit. unfold validate_rent, bind, getitem, lift, emit, PyFloat.int_mul.
  split.
  - now intros ->.
  - intros [avg Hc]. rewrite Hc.
    destruct (of_int_int64 avg (proj1 (Hfit avg Hc))) as [x ->].
    destruct (PyFloat.int_lt r _); simpl; [reflexivity |].
    now destruct (PyFloat.int_gt r _).
Qed.

Lemma validate_rent_raises_iff_missing_witness :
  in_range 31000 /\
  (validate_rent "Goa" 31000
     {| globals_rent_data := {[ "Goa"%string := 2 ^ 62 ]};
        rendered := [] |}).1 = Ok tt /\
  validate_rent "Pune" 31000
     {| globals_rent_data := {[ "Goa"%string := 2 ^ 62 ]};
        rendered := [] |} =
    (Raise (KeyError "Pune"),
     {| globals_rent_data := {[ "Goa"%string := 2 ^ 62 ]}; rendered := [] |}).
Proof.
  assert (Hr : in_range 31000) by (unfold in_range, min_value, max_value; lia).
  split; [exact Hr |]. split.
  - apply (validate_rent_raises_iff_missing "Goa" 31000
             {| globals_rent_data := {[ "Goa"%string := 2 ^ 62 ]};
                rendered := [] |} Hr).
    + intros avg H. vm_compute in H. injection H as <-.
      unfold int64. split; lia.
    + now exists (2 ^ 62).
  - apply (validate_rent_raises_iff_missing "Pune" 31000
             {| globals_rent_data := {[ "Goa"%string := 2 ^ 62 ]};
                rendered := [] |} Hr).
    + intros avg H. discriminate H.
    + reflexivity.
Defined.

(** X20. On any table, a run of the handler that returns has appended
    exactly three elements to the page, in this order: one status element
    (error, warning or success), the pie chart of the rent and of its
    distance to the city's average, and the line that reports that
    average; the average is the table's entry for the city, and the table
    is unchanged. *)
Theorem validate_rent_returns (c : string) (r : Z) (s s' : script_state) :
  validate_rent c r s = (Ok tt, s') ->
  exists avg v,
    globals_rent_data s !! c = Some avg /\
    s' = {| globals_rent_data := globals_rent_data s;
            rendered := rendered s ++
                        [status v; chart avg r; average_line c avg] |}.
Proof.
  unfold validate_rent, bind, getitem, lift, emit, PyFloat.int_mul.
  destruct (globals_rent_data s !! c) as [avg |]; [| discriminate].
  destruct (PyFloat.of_int avg) as [x | e']; [| discriminate].
  destruct (PyFloat.int_lt r _); simpl.
  - intros [= <-]. exists avg, TooLow. split; [reflexivity |].
    now rewrite <- !app_assoc.
  - destruct (PyFloat.int_gt r _); simpl; intros [= <-].
    + exists avg, TooHigh. split; [reflexivity |]. now rewrite <- !app_assoc.
    + exists avg, Reasonable. split; [reflexivity |]. now rewrite <- !app_assoc.
Qed.

Lemma validate_rent_returns_witness :
  exists avg v,
    globals_rent_data
      {| globals_rent_data := {[ "Goa"%string := 30000 ]}; rendered := [] |}
      !! "Goa"%string = Some avg /\
    (validate_rent "Goa" 31000
       {| globals_rent_data := {[ "Goa"%string := 30000 ]};
          rendered := [] |}).2 =
      {| globals_rent_data := {[ "Goa"%string := 30000 ]};
         rendered := [] ++ [status v; chart avg 31000; average_line "Goa" avg] |}.
Proof.
  exact (validate_rent_returns "Goa" 31000
           {| globals_rent_data := {[ "Goa"%string := 30000 ]}; rendered := [] |}
           _ eq_refl).
Defined.
